(** * PowerBI source configuration: validation and normalisation

    Shallow embedding of
    [metadata-ingestion/src/datahub/ingestion/source/powerbi/config.py].

    The configuration class is a pydantic (v1) model.  Constructing it runs,
    in this order,
      - the [pre=True] root validators on the raw input mapping,
      - the per-field loop (missing required field, default, or type check
        followed by the field's own validators),
      - the [pre=False] root validators on the validated values,
    and raises one [ValidationError] carrying the collected errors, or
    returns the values as the object's attribute dictionary.

    Python dictionaries are finite maps with string keys ([gmap string _]);
    [d.get(k)] is [d !! k], [d[k] = v] is [<[k:=v]> d], [del d[k]] and
    [d.pop(k)] are [delete k d].

    Scope.  The model covers the fields and validators declared in
    [PowerBiDashboardSourceConfig] itself.  Fields and validators inherited
    from its base classes, and what the base model does with keys that are
    not fields, are declared in other modules and are not modelled: the raw
    mapping is read at the keys of the declared fields only.  Warnings
    (logging, deprecation notices) are the only side effect of the source
    and are left out. *)

From Stdlib Require Import ZArith String.
From stdpp Require Import gmap strings list fin_maps.

Open Scope string_scope.
Open Scope list_scope.
Open Scope stdpp_scope.

(** ** Constants and the supported data platforms *)

Module Constant.
Definition PLATFORM_NAME : string := "powerbi".
End Constant.

Record DataPlatformPair := {
  datahub_data_platform_name : string;
  powerbi_data_platform_name : string
}.

Inductive SupportedDataPlatform :=
| POSTGRES_SQL
| ORACLE
| SNOWFLAKE
| MS_SQL
| GOOGLE_BIGQUERY
| AMAZON_REDSHIFT.

(** [item.value] of the enum. *)
Definition platform_value (item : SupportedDataPlatform) : DataPlatformPair :=
  match item with
  | POSTGRES_SQL =>
      {| powerbi_data_platform_name := "PostgreSQL";
         datahub_data_platform_name := "postgres" |}
  | ORACLE =>
      {| powerbi_data_platform_name := "Oracle";
         datahub_data_platform_name := "oracle" |}
  | SNOWFLAKE =>
      {| powerbi_data_platform_name := "Snowflake";
         datahub_data_platform_name := "snowflake" |}
  | MS_SQL =>
      {| powerbi_data_platform_name := "Sql";
         datahub_data_platform_name := "mssql" |}
  | GOOGLE_BIGQUERY =>
      {| powerbi_data_platform_name := "GoogleBigQuery";
         datahub_data_platform_name := "bigquery" |}
  | AMAZON_REDSHIFT =>
      {| powerbi_data_platform_name := "AmazonRedshift";
         datahub_data_platform_name := "redshift" |}
  end.

(** Iteration order of [for item in SupportedDataPlatform]. *)
Definition SupportedDataPlatform_members : list SupportedDataPlatform :=
  [POSTGRES_SQL; ORACLE; SNOWFLAKE; MS_SQL; GOOGLE_BIGQUERY; AMAZON_REDSHIFT].

Definition default_for_dataset_type_mapping : gmap string string :=
  foldl
    (fun dict_ item =>
       <[powerbi_data_platform_name (platform_value item) :=
           datahub_data_platform_name (platform_value item)]> dict_)
    ∅ SupportedDataPlatform_members.

(** ** Collaborators declared outside this file *)

(** Modelled from the spec: [AllowDenyPattern] is declared in
    [datahub.configuration.common], which is not part of the source tree.
    The spec gives it as a pair of ordered sequences of regular-expression
    strings, [allow] and [deny], compared structurally, with the canonical
    allow-everything value holding the single pattern [.*] in [allow]. *)
Record AllowDenyPattern := {
  allow : list string;
  deny : list string
}.

(** Modelled from the spec: [AllowDenyPattern(allow=...)]; an omitted [allow]
    is the single pattern [.*], an omitted [deny] is the empty list. *)
Definition AllowDenyPattern_init (allow_ : option (list string)) : AllowDenyPattern :=
  {| allow := default [".*"] allow_; deny := [] |}.

(** Modelled from the spec: [AllowDenyPattern.allow_all()], the canonical
    allow-everything pattern. *)
Definition allow_all : AllowDenyPattern := AllowDenyPattern_init None.

(** Modelled from the spec: [DEFAULT_ENV] of
    [datahub.configuration.source_common] is ["PROD"]. *)
Definition DEFAULT_ENV : string := "PROD".

Record PlatformDetail := {
  platform_instance : option string;
  env : string
}.

(** Modelled from the spec: [builder.make_data_platform_urn] lives in
    [datahub.emitter.mce_builder], outside the source tree.  The spec only
    says that the urn is derived from the platform name; the data-platform
    urn prefix is put in front of it. *)
Definition make_data_platform_urn (platform : string) : string :=
  "urn:li:dataPlatform:" +:+ platform.

(** Modelled from the spec: [StatefulStaleMetadataRemovalConfig] is opaque to
    this module and passed through untouched. *)
Record StatefulStaleMetadataRemovalConfig := {
  stateful_settings : list (string * string)
}.

(** ** Values held by the raw mapping and by the validated object *)

(** An entry of a [Dict[str, str]] or of a [Dict[str, PlatformDetail]]. *)
Inductive entry :=
| EStr (s : string)
| EDetail (d : PlatformDetail).

Inductive value :=
| VNone
| VStr (s : string)
| VInt (z : Z)
| VBool (b : bool)
| VPattern (p : AllowDenyPattern)
| VDict (d : gmap string entry)
| VStateful (c : StatefulStaleMetadataRemovalConfig).

#[global] Instance AllowDenyPattern_eq_dec : EqDecision AllowDenyPattern.
Proof. solve_decision. Defined.
#[global] Instance PlatformDetail_eq_dec : EqDecision PlatformDetail.
Proof. solve_decision. Defined.
#[global] Instance entry_eq_dec : EqDecision entry.
Proof. solve_decision. Defined.
#[global] Instance Stateful_eq_dec : EqDecision StatefulStaleMetadataRemovalConfig.
Proof. solve_decision. Defined.
#[global] Instance value_eq_dec : EqDecision value.
Proof. solve_decision. Defined.

(** The errors pydantic collects.  [ValueError] is the exception raised by a
    validator of this file (the spec calls the one of the exclusivity guard
    ConfigConflictError); [MissingError] reports a required field that the
    input lacks (MissingRequiredFieldError in the spec) and [TypeError] a
    value that does not have the field's declared type; both carry the
    field's name. *)
Inductive error :=
| ValueError (msg : string)
| MissingError (loc : string)
| TypeError (loc : string).

#[global] Instance error_eq_dec : EqDecision error.
Proof. solve_decision. Defined.

(** Outcome of a construction: the attribute dictionary of the new object,
    or the [ValidationError] that is raised instead. *)
Inductive result :=
| Ok (values : gmap string value)
| ValidationError (errors : list error).

(** ** Field schema *)

Inductive ftype :=
| TStr                  (* str *)
| TOptStr               (* Optional[str] *)
| TInt                  (* int *)
| TBool                 (* bool *)
| TAllowDeny            (* AllowDenyPattern *)
| TDatasetTypeMapping   (* Union[Dict[str, str], Dict[str, PlatformDetail]] *)
| TServerMap            (* Dict[str, PlatformDetail] *)
| TOptStateful.         (* Optional[StatefulStaleMetadataRemovalConfig] *)

Definition is_str (e : entry) : bool :=
  match e with EStr _ => true | EDetail _ => false end.
Definition is_detail (e : entry) : bool :=
  match e with EStr _ => false | EDetail _ => true end.

Definition all_entries (p : entry -> bool) (d : gmap string entry) : bool :=
  forallb (fun kv => p kv.2) (map_to_list d).

(** Type check of one field.  A value of the declared shape is kept as it
    is; [None] is accepted by the [Optional] fields only.  The coercions
    pydantic applies to values of another shape are not part of this file:
    such a value is reported as a type error. *)
Definition type_check (t : ftype) (v : value) : option value :=
  match t, v with
  | TStr, VStr _ => Some v
  | TOptStr, VNone => Some v
  | TOptStr, VStr _ => Some v
  | TInt, VInt _ => Some v
  | TBool, VBool _ => Some v
  | TAllowDeny, VPattern _ => Some v
  | TDatasetTypeMapping, VDict d =>
      if all_entries is_str d || all_entries is_detail d then Some v else None
  | TServerMap, VDict d =>
      if all_entries is_detail d then Some v else None
  | TOptStateful, VNone => Some v
  | TOptStateful, VStateful _ => Some v
  | _, _ => None
  end.

(** [map_data_platform]: the validator of [dataset_type_mapping]. *)
Definition map_data_platform {V : Type} (value : gmap string V) : gmap string V :=
  match value !! "PostgreSql" with
  | Some platform_name =>
      <["PostgreSQL" := platform_name]> (delete "PostgreSql" value)
  | None => value
  end.

(** The validator as pydantic calls it, on the type-checked field value. *)
Definition map_data_platform_validator (v : value) : value :=
  match v with
  | VDict d => VDict (map_data_platform d)
  | _ => v
  end.

Record ModelField := {
  name : string;
  type_ : ftype;
  (** [None] for a required field, otherwise the default (the result of
      [default_factory] where the field has one). *)
  field_default : option value;
  (** The [@validator] functions of the field, applied after the type
      check. *)
  class_validator : value -> value
}.

Definition Field (n : string) (t : ftype) (d : option value) : ModelField :=
  {| name := n; type_ := t; field_default := d; class_validator := fun v => v |}.

(** The fields of [PowerBiDashboardSourceConfig], in declaration order. *)
Definition fields : list ModelField :=
  [ Field "platform_name" TStr (Some (VStr Constant.PLATFORM_NAME));
    Field "platform_urn" TStr
      (Some (VStr (make_data_platform_urn Constant.PLATFORM_NAME)));
    Field "tenant_id" TStr None;
    Field "workspace_id" TOptStr (Some VNone);
    Field "workspace_id_pattern" TAllowDeny (Some (VPattern allow_all));
    {| name := "dataset_type_mapping";
       type_ := TDatasetTypeMapping;
       field_default := Some (VDict (EStr <$> default_for_dataset_type_mapping));
       class_validator := map_data_platform_validator |};
    Field "server_to_platform_instance" TServerMap (Some (VDict ∅));
    Field "client_id" TStr None;
    Field "client_secret" TStr None;
    Field "scan_timeout" TInt (Some (VInt 60));
    Field "extract_ownership" TBool (Some (VBool false));
    Field "extract_reports" TBool (Some (VBool true));
    Field "extract_lineage" TBool (Some (VBool true));
    Field "extract_endorsements_to_tags" TBool (Some (VBool false));
    Field "extract_workspaces_to_containers" TBool (Some (VBool true));
    Field "native_query_parsing" TBool (Some (VBool true));
    Field "convert_urns_to_lowercase" TBool (Some (VBool false));
    Field "convert_lineage_urns_to_lowercase" TBool (Some (VBool true));
    Field "stateful_ingestion" TOptStateful (Some VNone);
    Field "admin_apis_only" TBool (Some (VBool false));
    Field "platform_instance" TOptStr (Some VNone) ].

(** ** Root validators *)

Definition is_not_None (o : option value) : bool :=
  match o with
  | None => false
  | Some VNone => false
  | Some _ => true
  end.

Definition conflict_message : string :=
  "dataset_type_mapping is deprecated. Use server_to_platform_instance only.".

(** [raise_error_for_dataset_type_mapping], a [pre=True] root validator: it
    sees the raw input, before any default is filled in. *)
Definition raise_error_for_dataset_type_mapping
    (values : gmap string value) : error + gmap string value :=
  if is_not_None (values !! "dataset_type_mapping")
     && is_not_None (values !! "server_to_platform_instance")
  then inl (ValueError conflict_message)
  else inr values.

(** [workspace_id_backward_compatibility], a [pre=False] root validator: it
    sees the validated values.  [workspace_id] is declared [Optional[str]],
    so the entry is missing (its validation failed), [None] or a [str] when
    the validator runs, and its truth value is that of a string: the empty
    string is false like [None]. *)
Definition workspace_id_backward_compatibility
    (values : gmap string value) : gmap string value :=
  let workspace_id := values !! "workspace_id" in
  let workspace_id_pattern := values !! "workspace_id_pattern" in
  match workspace_id with
  | Some (VStr s) =>
      if bool_decide (s = "") then values
      else if bool_decide (workspace_id_pattern = Some (VPattern allow_all)) then
        <["workspace_id_pattern" :=
            VPattern (AllowDenyPattern_init (Some ["^" +:+ s +:+ "$"]))]> values
      else delete "workspace_id" values
  | _ => values
  end.

(** ** Construction *)

(** One round of the field loop of pydantic's [validate_model]. *)
Definition validate_field (input_data : gmap string value) (field : ModelField)
    (acc : gmap string value * list error) : gmap string value * list error :=
  let '(values, errors) := acc in
  match input_data !! name field with
  | None =>
      match field_default field with
      | None => (values, errors ++ [MissingError (name field)])
      | Some value => (<[name field := value]> values, errors)
      end
  | Some value =>
      match type_check (type_ field) value with
      | Some v_ => (<[name field := class_validator field v_]> values, errors)
      | None => (values, errors ++ [TypeError (name field)])
      end
  end.

Fixpoint validate_fields (input_data : gmap string value) (fs : list ModelField)
    (acc : gmap string value * list error) : gmap string value * list error :=
  match fs with
  | [] => acc
  | field :: fs' => validate_fields input_data fs' (validate_field input_data field acc)
  end.

(** [validate_model]: pre root validators (an exception there is reported
    alone), the field loop, then the post root validators, which run on
    whatever values were collected. *)
Definition validate_model (input_data : gmap string value)
    : gmap string value * list error :=
  match raise_error_for_dataset_type_mapping input_data with
  | inl exc => (∅, [exc])
  | inr input_data =>
      let '(values, errors) := validate_fields input_data fields (∅, []) in
      (workspace_id_backward_compatibility values, errors)
  end.

(** [PowerBiDashboardSourceConfig.parse_obj(raw)]: the object is created only
    when no error was collected. *)
Definition parse_obj (raw : gmap string value) : result :=
  let '(values, errors) := validate_model raw in
  match errors with
  | [] => Ok values
  | _ => ValidationError errors
  end.

(** ** Observations used in the statements *)

(** [needle in hay] on strings. *)
Fixpoint contains (needle hay : string) : bool :=
  String.prefix needle hay
  || match hay with
     | EmptyString => false
     | String _ hay' => contains needle hay'
     end.

(** A field is absent from an object when the attribute dictionary has no
    such key or holds [None] for it. *)
Definition absent (k : string) (values : gmap string value) : Prop :=
  values !! k = None \/ values !! k = Some VNone.

(** Feeding a result to a further construction. *)
Definition and_then (r : result) (k : gmap string value -> result) : result :=
  match r with
  | Ok values => k values
  | ValidationError errors => ValidationError errors
  end.

Definition required_only (t c s : string) : gmap string value :=
  {[ "tenant_id" := VStr t; "client_id" := VStr c; "client_secret" := VStr s ]}.

(** What the field loop does for one field, on its own. *)
Definition field_outcome (input_data : gmap string value) (field : ModelField)
    : error + value :=
  match input_data !! name field with
  | None =>
      match field_default field with
      | None => inl (MissingError (name field))
      | Some value => inr value
      end
  | Some value =>
      match type_check (type_ field) value with
      | Some v_ => inr (class_validator field v_)
      | None => inl (TypeError (name field))
      end
  end.

Definition outcome_error (input_data : gmap string value) (field : ModelField)
    : option error :=
  match field_outcome input_data field with
  | inl e => Some e
  | inr _ => None
  end.

Definition field_named (k : string) (fs : list ModelField) : option ModelField :=
  List.find (fun f => bool_decide (name f = k)) fs.

(** The values collected by the field loop on [raw]. *)
Definition validated (raw : gmap string value) : gmap string value :=
  (validate_fields raw fields (∅, [])).1.

(** Whether the workspace rule folds [workspace_id] into the pattern: the
    first branch of [workspace_id_backward_compatibility]. *)
Definition folds_workspace_id (values : gmap string value) : bool :=
  match values !! "workspace_id" with
  | Some (VStr s) =>
      negb (bool_decide (s = ""))
      && bool_decide (values !! "workspace_id_pattern" = Some (VPattern allow_all))
  | _ => false
  end.

(** ** Sample raw mappings *)

Definition raw_required : gmap string value := required_only "t" "c" "s".

(** Both the deprecated mapping and its replacement are supplied. *)
Definition raw_both_mappings : gmap string value :=
  <["dataset_type_mapping" := VDict {[ "Snowflake" := EStr "snowflake" ]}]>
    (<["server_to_platform_instance" :=
         VDict {[ "host:1433" :=
                    EDetail {| platform_instance := Some "prod_mssql";
                               env := DEFAULT_ENV |} ]}]> raw_required).

(** Only the replacement is supplied, and the tenant is forgotten. *)
Definition raw_server_mapping_no_tenant : gmap string value :=
  <["server_to_platform_instance" := VDict ∅]>
    (delete "tenant_id" raw_required).

(** The deprecated selector alone, as the empty string and as a name. *)
Definition raw_empty_workspace_id : gmap string value :=
  <["workspace_id" := VStr ""]> raw_required.

Definition raw_workspace_abc : gmap string value :=
  <["workspace_id" := VStr "abc"]> raw_required.

(** An explicit pattern next to the deprecated selector. *)
Definition foo_pattern : AllowDenyPattern :=
  {| allow := ["^foo.*"]; deny := [] |}.

Definition raw_pattern_and_abc : gmap string value :=
  <["workspace_id_pattern" := VPattern foo_pattern]> raw_workspace_abc.

Definition raw_pattern_and_empty_id : gmap string value :=
  <["workspace_id_pattern" := VPattern foo_pattern]> raw_empty_workspace_id.


Definition required_fields : list string :=
  ["tenant_id"; "client_id"; "client_secret"].

(** The legacy spelling of the PostgreSQL key, alone and next to the
    current spelling. *)
Definition legacy_postgres : gmap string entry :=
  {[ "PostgreSql" := EStr "x" ]}.

Definition both_postgres : gmap string entry :=
  {[ "PostgreSql" := EStr "legacy"; "PostgreSQL" := EStr "current" ]}.

Definition raw_legacy_postgres : gmap string value :=
  <["dataset_type_mapping" := VDict legacy_postgres]> raw_required.

(** ** The ingestion report *)

(** The counters that [PowerBiDashboardSourceReport] declares itself; the
    fields of its base class are declared elsewhere and no method of this
    class reads or writes them. *)
Record PowerBiDashboardSourceReport := {
  dashboards_scanned : Z;
  charts_scanned : Z;
  filtered_dashboards : list string;
  filtered_charts : list string;
  number_of_workspaces : Z
}.

(** A fresh report: the declared defaults. *)
Definition PowerBiDashboardSourceReport_init : PowerBiDashboardSourceReport :=
  {| dashboards_scanned := 0;
     charts_scanned := 0;
     filtered_dashboards := [];
     filtered_charts := [];
     number_of_workspaces := 0 |}.

(** The methods update [self] in place; here they return the updated report.
    [count] is [None] when the caller leaves the argument out ([count = 1]). *)
Definition report_dashboards_scanned
    (self : PowerBiDashboardSourceReport) (count : option Z)
    : PowerBiDashboardSourceReport :=
  {| dashboards_scanned := dashboards_scanned self + default 1%Z count;
     charts_scanned := charts_scanned self;
     filtered_dashboards := filtered_dashboards self;
     filtered_charts := filtered_charts self;
     number_of_workspaces := number_of_workspaces self |}.

Definition report_charts_scanned
    (self : PowerBiDashboardSourceReport) (count : option Z)
    : PowerBiDashboardSourceReport :=
  {| dashboards_scanned := dashboards_scanned self;
     charts_scanned := charts_scanned self + default 1%Z count;
     filtered_dashboards := filtered_dashboards self;
     filtered_charts := filtered_charts self;
     number_of_workspaces := number_of_workspaces self |}.

Definition report_dashboards_dropped
    (self : PowerBiDashboardSourceReport) (model : string)
    : PowerBiDashboardSourceReport :=
  {| dashboards_scanned := dashboards_scanned self;
     charts_scanned := charts_scanned self;
     filtered_dashboards := filtered_dashboards self ++ [model];
     filtered_charts := filtered_charts self;
     number_of_workspaces := number_of_workspaces self |}.

Definition report_charts_dropped
    (self : PowerBiDashboardSourceReport) (view : string)
    : PowerBiDashboardSourceReport :=
  {| dashboards_scanned := dashboards_scanned self;
     charts_scanned := charts_scanned self;
     filtered_dashboards := filtered_dashboards self;
     filtered_charts := filtered_charts self ++ [view];
     number_of_workspaces := number_of_workspaces self |}.

Definition report_number_of_workspaces
    (self : PowerBiDashboardSourceReport) (number_of_workspaces_ : Z)
    : PowerBiDashboardSourceReport :=
  {| dashboards_scanned := dashboards_scanned self;
     charts_scanned := charts_scanned self;
     filtered_dashboards := filtered_dashboards self;
     filtered_charts := filtered_charts self;
     number_of_workspaces := number_of_workspaces_ |}.

(** What a caller does with a report: a sequence of method calls. *)
Inductive report_call :=
| DashboardsScanned (count : option Z)
| ChartsScanned (count : option Z)
| DashboardsDropped (model : string)
| ChartsDropped (view : string)
| NumberOfWorkspaces (number_of_workspaces_ : Z).

Definition report_step (self : PowerBiDashboardSourceReport) (c : report_call)
    : PowerBiDashboardSourceReport :=
  match c with
  | DashboardsScanned count => report_dashboards_scanned self count
  | ChartsScanned count => report_charts_scanned self count
  | DashboardsDropped model => report_dashboards_dropped self model
  | ChartsDropped view => report_charts_dropped self view
  | NumberOfWorkspaces n => report_number_of_workspaces self n
  end.

Definition report_calls (self : PowerBiDashboardSourceReport)
    (cs : list report_call) : PowerBiDashboardSourceReport :=
  foldl report_step self cs.

(** Readings of a call sequence. *)
Definition dashboards_counted (c : report_call) : Z :=
  match c with DashboardsScanned count => default 1%Z count | _ => 0%Z end.

Definition charts_counted (c : report_call) : Z :=
  match c with ChartsScanned count => default 1%Z count | _ => 0%Z end.

Definition dashboard_dropped (c : report_call) : option string :=
  match c with DashboardsDropped model => Some model | _ => None end.

Definition chart_dropped (c : report_call) : option string :=
  match c with ChartsDropped view => Some view | _ => None end.

Definition workspaces_reported (c : report_call) : option Z :=
  match c with NumberOfWorkspaces n => Some n | _ => None end.

Definition sum_Z (l : list Z) : Z := foldr Z.add 0%Z l.

Definition sample_calls : list report_call :=
  [DashboardsScanned None; DashboardsDropped "sales"; ChartsScanned (Some 3%Z);
   NumberOfWorkspaces 2%Z; DashboardsScanned (Some 4%Z)].

(** Further sample raw mappings. *)
Definition raw_allow_all_and_abc : gmap string value :=
  <["workspace_id_pattern" := VPattern allow_all]> raw_workspace_abc.

Definition raw_null_dataset_type_mapping : gmap string value :=
  <["dataset_type_mapping" := VNone]>
    (<["server_to_platform_instance" := VDict ∅]> raw_required).

Definition raw_custom_toggles : gmap string value :=
  <["extract_reports" := VBool false]>
    (<["scan_timeout" := VInt 120]> raw_required).

(** ** The field loop *)

Section field_loop.
Variable input_data : gmap string value.

Lemma validate_field_outcome field values errors :
  validate_field input_data field (values, errors) =
  match field_outcome input_data field with
  | inr v => (<[name field := v]> values, errors)
  | inl e => (values, errors ++ [e])
  end.
Proof.
  unfold validate_field, field_outcome.
  destruct (input_data !! name field) as [v|].
  - by destruct (type_check (type_ field) v).
  - by destruct (field_default field).
Qed.

Lemma validate_fields_errors fs values errors :
  (validate_fields input_data fs (values, errors)).2 =
  errors ++ omap (outcome_error input_data) fs.
Proof.
  revert values errors.
  induction fs as [|field fs IH]; intros values errors; cbn [validate_fields].
  - by rewrite app_nil_r.
  - assert (omap (outcome_error input_data) (field :: fs) =
            match outcome_error input_data field with
            | Some e => e :: omap (outcome_error input_data) fs
            | None => omap (outcome_error input_data) fs
            end) as -> by done.
    rewrite validate_field_outcome. unfold outcome_error at 1.
    destruct (field_outcome input_data field) as [e|v]; rewrite IH.
    + by rewrite <- (assoc_L (++)).
    + done.
Qed.

Lemma field_named_None k fs :
  k ∉ name <$> fs -> field_named k fs = None.
Proof.
  induction fs as [|field fs IH]; simpl; [done|].
  rewrite not_elem_of_cons. intros [Hne Hnotin].
  rewrite bool_decide_false by congruence. by apply IH.
Qed.

Lemma validate_fields_lookup fs values errors k :
  NoDup (name <$> fs) ->
  (validate_fields input_data fs (values, errors)).1 !! k =
  match field_named k fs with
  | Some field =>
      match field_outcome input_data field with
      | inr v => Some v
      | inl _ => values !! k
      end
  | None => values !! k
  end.
Proof.
  revert values errors.
  induction fs as [|field fs IH]; intros values errors Hnd;
    cbn [validate_fields field_named List.find]; [done|].
  rewrite fmap_cons in Hnd. apply NoDup_cons in Hnd as [Hfresh Hnd].
  rewrite validate_field_outcome.
  destruct (decide (name field = k)) as [<-|Hne].
  - rewrite bool_decide_true by done.
    destruct (field_outcome input_data field) as [e|v];
      rewrite IH, field_named_None by done; [done|].
    by rewrite lookup_insert_eq.
  - rewrite bool_decide_false by done.
    destruct (field_outcome input_data field) as [e|v]; rewrite IH by done.
    + done.
    + by rewrite lookup_insert_ne.
Qed.
End field_loop.

Lemma fields_NoDup : NoDup (name <$> fields).
Proof. apply (bool_decide_unpack _). by vm_compute. Qed.

Lemma validated_lookup raw k :
  validated raw !! k =
  match field_named k fields with
  | Some field =>
      match field_outcome raw field with
      | inr v => Some v
      | inl _ => None
      end
  | None => None
  end.
Proof.
  unfold validated.
  rewrite validate_fields_lookup by apply fields_NoDup.
  by rewrite lookup_empty.
Qed.

(** ** Construction, unfolded *)

Lemma raise_error_for_dataset_type_mapping_inr raw values :
  raise_error_for_dataset_type_mapping raw = inr values -> values = raw.
Proof.
  unfold raise_error_for_dataset_type_mapping.
  destruct (_ && _); congruence.
Qed.

Lemma collected_result (p : gmap string value * list error) :
  (let '(values, errors) :=
     (let '(values, errors) := p in
      (workspace_id_backward_compatibility values, errors)) in
   match errors with
   | [] => Ok values
   | _ => ValidationError errors
   end) =
  match p.2 with
  | [] => Ok (workspace_id_backward_compatibility p.1)
  | errors => ValidationError errors
  end.
Proof. destruct p as [values errors]. by destruct errors. Qed.

Lemma parse_obj_unfold raw :
  parse_obj raw =
  match raise_error_for_dataset_type_mapping raw with
  | inl exc => ValidationError [exc]
  | inr _ =>
      match omap (outcome_error raw) fields with
      | [] => Ok (workspace_id_backward_compatibility (validated raw))
      | errors => ValidationError errors
      end
  end.
Proof.
  unfold parse_obj, validate_model, validated.
  destruct (raise_error_for_dataset_type_mapping raw) as [exc|values] eqn:Hpre;
    [done|].
  apply raise_error_for_dataset_type_mapping_inr in Hpre as ->.
  rewrite collected_result, validate_fields_errors.
  reflexivity.
Qed.

Lemma omap_nil_elem {A B} (g : A -> option B) (l : list A) (x : A) :
  omap g l = [] -> x ∈ l -> g x = None.
Proof.
  induction l as [|y l IH]; intros Hnil Hin; [by apply elem_of_nil in Hin|].
  assert (omap g (y :: l) =
          match g y with Some b => b :: omap g l | None => omap g l end) as Hc
    by done.
  rewrite Hc in Hnil.
  apply elem_of_cons in Hin as [->|Hin].
  - by destruct (g y).
  - destruct (g y); [done|]. by apply IH.
Qed.

Lemma parse_obj_Ok raw cfg :
  parse_obj raw = Ok cfg ->
  raise_error_for_dataset_type_mapping raw = inr raw /\
  omap (outcome_error raw) fields = [] /\
  cfg = workspace_id_backward_compatibility (validated raw).
Proof.
  rewrite parse_obj_unfold.
  destruct (raise_error_for_dataset_type_mapping raw) as [exc|values] eqn:Hpre;
    [done|].
  apply raise_error_for_dataset_type_mapping_inr in Hpre as Heq. subst values.
  destruct (omap (outcome_error raw) fields); [|done].
  intros [= <-]. done.
Qed.

(** A successful construction validated every field. *)
Lemma parse_obj_Ok_field raw cfg k field :
  parse_obj raw = Ok cfg ->
  field_named k fields = Some field ->
  exists v, field_outcome raw field = inr v /\ validated raw !! k = Some v.
Proof.
  intros Hok Hnamed.
  apply parse_obj_Ok in Hok as (_ & Hnil & _).
  pose proof Hnamed as Hin. unfold field_named in Hin.
  apply List.find_some in Hin as [Hin _]. apply list_elem_of_In in Hin.
  pose proof (omap_nil_elem _ _ _ Hnil Hin) as Hnone.
  unfold outcome_error in Hnone.
  rewrite validated_lookup, Hnamed.
  destruct (field_outcome raw field) as [e|v]; [done|]. by exists v.
Qed.

(** How a concrete raw mapping is shown to be accepted: the guard and the
    error list are evaluated, the collected values are not. *)
Lemma parse_obj_accepts raw :
  is_not_None (raw !! "dataset_type_mapping")
  && is_not_None (raw !! "server_to_platform_instance") = false ->
  omap (outcome_error raw) fields = [] ->
  parse_obj raw = Ok (workspace_id_backward_compatibility (validated raw)).
Proof.
  intros Hguard Hnil. rewrite parse_obj_unfold.
  unfold raise_error_for_dataset_type_mapping. by rewrite Hguard, Hnil.
Qed.

Ltac accepted := apply parse_obj_accepts; by vm_compute.

(** The field loop reports missing fields and type errors only. *)
Lemma outcome_error_not_ValueError raw field e msg :
  outcome_error raw field = Some e -> e <> ValueError msg.
Proof.
  unfold outcome_error, field_outcome.
  repeat case_match; naive_solver.
Qed.

Lemma field_errors_not_ValueError raw (fs : list ModelField) msg :
  ValueError msg ∉ omap (outcome_error raw) fs.
Proof.
  intros Hin. apply list_elem_of_omap in Hin as (field & _ & Hout).
  by eapply outcome_error_not_ValueError.
Qed.

(** ** The exclusivity guard *)

(** C1: when the raw mapping holds both [dataset_type_mapping] and
    [server_to_platform_instance] with values other than [None],
    construction fails with the single error raised by the guard, whose
    message names both fields and tells to use
    [server_to_platform_instance]; when the raw mapping has no
    [dataset_type_mapping], the guard lets it through and no error of a
    failed construction comes from a validator, whatever default the schema
    fills in later. *)
Theorem conflict_on_raw_presence (raw : gmap string value) :
  (forall d s : value,
     raw !! "dataset_type_mapping" = Some d -> d <> VNone ->
     raw !! "server_to_platform_instance" = Some s -> s <> VNone ->
     parse_obj raw = ValidationError [ValueError conflict_message]
     /\ contains "dataset_type_mapping" conflict_message = true
     /\ contains "server_to_platform_instance" conflict_message = true
     /\ contains "Use server_to_platform_instance" conflict_message = true)
  /\ (raw !! "dataset_type_mapping" = None ->
      raise_error_for_dataset_type_mapping raw = inr raw
      /\ forall errors msg,
           parse_obj raw = ValidationError errors -> ValueError msg ∉ errors).
Proof.
  split.
  - intros d s Hd Hdn Hs Hsn.
    split; [|by vm_compute].
    rewrite parse_obj_unfold. unfold raise_error_for_dataset_type_mapping.
    rewrite Hd, Hs. by destruct d, s.
  - intros Habsent.
    assert (raise_error_for_dataset_type_mapping raw = inr raw) as Hpre.
    { unfold raise_error_for_dataset_type_mapping. by rewrite Habsent. }
    split; [done|].
    intros errors msg. rewrite parse_obj_unfold, Hpre.
    destruct (omap (outcome_error raw) fields) as [|e errs] eqn:Herrs; [done|].
    intros [= <-]. rewrite <- Herrs. apply field_errors_not_ValueError.
Qed.

Lemma conflict_on_raw_presence_witness :
  parse_obj raw_both_mappings = ValidationError [ValueError conflict_message]
  /\ raise_error_for_dataset_type_mapping raw_server_mapping_no_tenant
     = inr raw_server_mapping_no_tenant
  /\ ValueError conflict_message ∉ [MissingError "tenant_id"].
Proof.
  destruct (conflict_on_raw_presence raw_both_mappings) as [Hboth _].
  destruct (conflict_on_raw_presence raw_server_mapping_no_tenant)
    as [_ Hdefault].
  split.
  - eapply Hboth.
    + by vm_compute.
    + done.
    + by vm_compute.
    + done.
  - destruct Hdefault as [Hguard Herrors]; [by vm_compute|].
    split; [exact Hguard|].
    apply Herrors. by vm_compute.
Defined.

(** ** The workspace selector *)

Lemma validated_workspace_id raw :
  validated raw !! "workspace_id" =
  match raw !! "workspace_id" with
  | None => Some VNone
  | Some VNone => Some VNone
  | Some (VStr s) => Some (VStr s)
  | Some _ => None
  end.
Proof.
  rewrite validated_lookup.
  assert (field_named "workspace_id" fields =
          Some (Field "workspace_id" TOptStr (Some VNone))) as ->
    by (by vm_compute).
  unfold field_outcome; cbn [name type_ field_default class_validator Field].
  by destruct (raw !! "workspace_id") as [[]|].
Qed.

Lemma validated_workspace_id_pattern raw :
  validated raw !! "workspace_id_pattern" =
  match raw !! "workspace_id_pattern" with
  | None => Some (VPattern allow_all)
  | Some (VPattern p) => Some (VPattern p)
  | Some _ => None
  end.
Proof.
  rewrite validated_lookup.
  assert (field_named "workspace_id_pattern" fields =
          Some (Field "workspace_id_pattern" TAllowDeny
                  (Some (VPattern allow_all)))) as ->
    by (by vm_compute).
  unfold field_outcome; cbn [name type_ field_default class_validator Field].
  by destruct (raw !! "workspace_id_pattern") as [[]|].
Qed.

(** C2, as amended: when [workspace_id_pattern] is not supplied and
    [workspace_id] is a non-empty string [s], the constructed configuration
    has the pattern allowing exactly ["^" + s + "$"] and denying nothing. *)
Theorem workspace_id_becomes_anchored_pattern
    (raw cfg : gmap string value) (s : string) :
  raw !! "workspace_id_pattern" = None ->
  raw !! "workspace_id" = Some (VStr s) ->
  s <> "" ->
  parse_obj raw = Ok cfg ->
  cfg !! "workspace_id_pattern" =
    Some (VPattern {| allow := ["^" +:+ s +:+ "$"]; deny := [] |}).
Proof.
  intros Hpat Hws Hne Hok.
  apply parse_obj_Ok in Hok as (_ & _ & ->).
  unfold workspace_id_backward_compatibility.
  rewrite validated_workspace_id, validated_workspace_id_pattern, Hpat, Hws.
  rewrite bool_decide_false, bool_decide_true by done.
  by rewrite lookup_insert_eq.
Qed.

Lemma workspace_id_becomes_anchored_pattern_witness :
  exists cfg,
    parse_obj raw_workspace_abc = Ok cfg
    /\ cfg !! "workspace_id_pattern" =
         Some (VPattern {| allow := ["^abc$"]; deny := [] |}).
Proof.
  assert (parse_obj raw_workspace_abc =
          Ok (workspace_id_backward_compatibility (validated raw_workspace_abc)))
    as Hok by accepted.
  eexists. split; [exact Hok|].
  apply (workspace_id_becomes_anchored_pattern raw_workspace_abc _ "abc").
  - by vm_compute.
  - by vm_compute.
  - done.
  - exact Hok.
Defined.

(** The claim C2 fails for the empty workspace id: the pattern stays the
    allow-all default instead of becoming ["^$"]. *)
Lemma empty_workspace_id_keeps_allow_all :
  raw_empty_workspace_id !! "workspace_id_pattern" = None
  /\ raw_empty_workspace_id !! "workspace_id" = Some (VStr "")
  /\ exists cfg,
       parse_obj raw_empty_workspace_id = Ok cfg
       /\ cfg !! "workspace_id_pattern" =
            Some (VPattern {| allow := [".*"]; deny := [] |})
       /\ cfg !! "workspace_id_pattern" <>
            Some (VPattern {| allow := ["^" +:+ "" +:+ "$"]; deny := [] |}).
Proof.
  split; [by vm_compute|]. split; [by vm_compute|].
  eexists. split; [accepted|].
  assert (workspace_id_backward_compatibility (validated raw_empty_workspace_id)
            !! "workspace_id_pattern"
          = Some (VPattern {| allow := [".*"]; deny := [] |})) as ->
    by (by vm_compute).
  split; [done|]. intros Heq. discriminate Heq.
Qed.

Lemma workspace_id_backward_compatibility_workspace_id values :
  workspace_id_backward_compatibility values !! "workspace_id" =
  match values !! "workspace_id" with
  | Some (VStr s) =>
      if bool_decide (s = "") then Some (VStr s)
      else if bool_decide
                (values !! "workspace_id_pattern" = Some (VPattern allow_all))
           then Some (VStr s)
           else None
  | o => o
  end.
Proof.
  unfold workspace_id_backward_compatibility.
  destruct (values !! "workspace_id") as [[]|] eqn:Hws; try done.
  repeat case_bool_decide; try done.
  - by rewrite lookup_insert_ne.
  - by rewrite lookup_delete_eq.
Qed.

Lemma workspace_id_backward_compatibility_pattern values :
  workspace_id_backward_compatibility values !! "workspace_id_pattern" =
  match values !! "workspace_id" with
  | Some (VStr s) =>
      if bool_decide (s = "") then values !! "workspace_id_pattern"
      else if bool_decide
                (values !! "workspace_id_pattern" = Some (VPattern allow_all))
           then Some (VPattern (AllowDenyPattern_init (Some ["^" +:+ s +:+ "$"])))
           else values !! "workspace_id_pattern"
  | _ => values !! "workspace_id_pattern"
  end.
Proof.
  unfold workspace_id_backward_compatibility.
  destruct (values !! "workspace_id") as [[]|] eqn:Hws; try done.
  repeat case_bool_decide; try done.
  - by rewrite lookup_insert_eq.
  - by rewrite lookup_delete_ne.
Qed.

Lemma workspace_id_backward_compatibility_other values k :
  k <> "workspace_id" -> k <> "workspace_id_pattern" ->
  workspace_id_backward_compatibility values !! k = values !! k.
Proof.
  intros Hws Hpat. unfold workspace_id_backward_compatibility.
  destruct (values !! "workspace_id") as [[]|]; try done.
  repeat case_bool_decide; try done.
  - by rewrite lookup_insert_ne.
  - by rewrite lookup_delete_ne.
Qed.

(** What a successful construction tells about the two selector entries of
    the raw mapping. *)
Lemma parse_obj_Ok_selectors raw cfg :
  parse_obj raw = Ok cfg ->
  (raw !! "workspace_id" = None \/ raw !! "workspace_id" = Some VNone
   \/ exists s, raw !! "workspace_id" = Some (VStr s))
  /\ (raw !! "workspace_id_pattern" = None
      \/ exists p, raw !! "workspace_id_pattern" = Some (VPattern p)).
Proof.
  intros Hok. split.
  - destruct (parse_obj_Ok_field raw cfg "workspace_id"
                (Field "workspace_id" TOptStr (Some VNone)) Hok)
      as (v & _ & Hv); [by vm_compute|].
    rewrite validated_workspace_id in Hv.
    destruct (raw !! "workspace_id") as [[| s | | | | |]|]; try done; eauto.
  - destruct (parse_obj_Ok_field raw cfg "workspace_id_pattern"
                (Field "workspace_id_pattern" TAllowDeny
                   (Some (VPattern allow_all))) Hok)
      as (v & _ & Hv); [by vm_compute|].
    rewrite validated_workspace_id_pattern in Hv.
    destruct (raw !! "workspace_id_pattern") as [[| | | | p | |]|];
      try done; eauto.
Qed.




(** C6, as amended: when the raw mapping supplies a [workspace_id_pattern]
    other than the allow-all default and a non-empty [workspace_id], the
    constructed configuration has no [workspace_id] and carries the supplied
    pattern unchanged. *)
Theorem explicit_pattern_wins
    (raw cfg : gmap string value) (p : AllowDenyPattern) (s : string) :
  raw !! "workspace_id_pattern" = Some (VPattern p) ->
  p <> allow_all ->
  raw !! "workspace_id" = Some (VStr s) ->
  s <> "" ->
  parse_obj raw = Ok cfg ->
  cfg !! "workspace_id" = None
  /\ cfg !! "workspace_id_pattern" = Some (VPattern p).
Proof.
  intros Hpat Hp Hws Hs Hok.
  apply parse_obj_Ok in Hok as (_ & _ & ->).
  rewrite workspace_id_backward_compatibility_workspace_id,
    workspace_id_backward_compatibility_pattern.
  rewrite validated_workspace_id, validated_workspace_id_pattern, Hpat, Hws.
  rewrite (bool_decide_false (s = "")) by done.
  rewrite bool_decide_false by congruence.
  done.
Qed.

Lemma explicit_pattern_wins_witness :
  exists cfg,
    parse_obj raw_pattern_and_abc = Ok cfg
    /\ cfg !! "workspace_id" = None
    /\ cfg !! "workspace_id_pattern" = Some (VPattern foo_pattern).
Proof.
  assert (parse_obj raw_pattern_and_abc =
          Ok (workspace_id_backward_compatibility
                (validated raw_pattern_and_abc))) as Hok by accepted.
  eexists. split; [exact Hok|].
  apply (explicit_pattern_wins raw_pattern_and_abc _ foo_pattern "abc").
  - by vm_compute.
  - done.
  - by vm_compute.
  - done.
  - exact Hok.
Defined.

(** The claim C6 fails for the empty workspace id: it is not removed. *)
Lemma empty_workspace_id_not_removed :
  raw_pattern_and_empty_id !! "workspace_id_pattern" = Some (VPattern foo_pattern)
  /\ foo_pattern <> allow_all
  /\ raw_pattern_and_empty_id !! "workspace_id" = Some (VStr "")
  /\ exists cfg,
       parse_obj raw_pattern_and_empty_id = Ok cfg
       /\ cfg !! "workspace_id" = Some (VStr "")
       /\ ~ absent "workspace_id" cfg.
Proof.
  split; [by vm_compute|]. split; [done|]. split; [by vm_compute|].
  eexists. split; [accepted|].
  assert (workspace_id_backward_compatibility
            (validated raw_pattern_and_empty_id)
            !! "workspace_id" = Some (VStr "")) as Hkept by (by vm_compute).
  split; [exact Hkept|].
  unfold absent. rewrite Hkept. by intros [?|?].
Qed.

(** ** One entry of the raw mapping at a time *)

Lemma field_named_elem fs field :
  NoDup (name <$> fs) -> field ∈ fs -> field_named (name field) fs = Some field.
Proof.
  induction fs as [|g fs IH]; intros Hnd Hin; [by apply elem_of_nil in Hin|].
  rewrite fmap_cons in Hnd. apply NoDup_cons in Hnd as [Hfresh Hnd].
  cbn [field_named List.find].
  apply elem_of_cons in Hin as [->|Hin].
  - by rewrite bool_decide_true.
  - rewrite bool_decide_false; [by apply IH|].
    intros Heq. apply Hfresh. rewrite Heq. by apply list_elem_of_fmap_2.
Qed.

Lemma field_named_name k fs field :
  field_named k fs = Some field -> name field = k /\ field ∈ fs.
Proof.
  unfold field_named. intros Hfind.
  apply List.find_some in Hfind as [Hin Hname].
  split; [by apply bool_decide_eq_true in Hname|by apply list_elem_of_In].
Qed.

Lemma field_outcome_insert_ne raw k v field :
  name field <> k ->
  field_outcome (<[k := v]> raw) field = field_outcome raw field.
Proof. intros Hne. unfold field_outcome. by rewrite lookup_insert_ne. Qed.

Lemma outcome_error_insert_ne raw k v field :
  name field <> k ->
  outcome_error (<[k := v]> raw) field = outcome_error raw field.
Proof. intros Hne. unfold outcome_error. by rewrite field_outcome_insert_ne. Qed.

Lemma omap_nil_intro {A B} (g : A -> option B) (l : list A) :
  (forall x, x ∈ l -> g x = None) -> omap g l = [].
Proof.
  induction l as [|y l IH]; intros Hall; [done|].
  assert (omap g (y :: l) =
          match g y with Some b => b :: omap g l | None => omap g l end) as ->
    by done.
  rewrite (Hall y) by apply list_elem_of_here.
  apply IH. intros x Hx. apply Hall. by apply list_elem_of_further.
Qed.

(** The only error of a loop in which one field fails. *)
Lemma omap_single (g : ModelField -> option error) fs field e :
  NoDup (name <$> fs) ->
  field ∈ fs -> g field = Some e ->
  (forall f, f ∈ fs -> name f <> name field -> g f = None) ->
  omap g fs = [e].
Proof.
  induction fs as [|f fs IH]; intros Hnd Hin Hg Hothers;
    [by apply elem_of_nil in Hin|].
  rewrite fmap_cons in Hnd. apply NoDup_cons in Hnd as [Hfresh Hnd].
  assert (omap g (f :: fs) =
          match g f with Some b => b :: omap g fs | None => omap g fs end) as ->
    by done.
  apply elem_of_cons in Hin as [<-|Hin].
  - rewrite Hg. f_equal. apply omap_nil_intro. intros x Hx.
    apply Hothers; [by apply list_elem_of_further|].
    intros Heq. apply Hfresh. rewrite <- Heq. by apply list_elem_of_fmap_2.
  - rewrite (Hothers f).
    + apply IH; [done..|]. intros x Hx. apply Hothers.
      by apply list_elem_of_further.
    + apply list_elem_of_here.
    + intros Heq. apply Hfresh. rewrite Heq. by apply list_elem_of_fmap_2.
Qed.





(** ** The derived field *)





(** ** Defaults and required fields *)

(** C8: a raw mapping that supplies the three required fields and nothing
    else is accepted, and the configuration holds the documented defaults of
    the nine toggles and of [scan_timeout]. *)
Theorem default_construction (t c s : string) :
  exists cfg,
    parse_obj (required_only t c s) = Ok cfg
    /\ cfg !! "extract_ownership" = Some (VBool false)
    /\ cfg !! "extract_reports" = Some (VBool true)
    /\ cfg !! "extract_lineage" = Some (VBool true)
    /\ cfg !! "extract_endorsements_to_tags" = Some (VBool false)
    /\ cfg !! "extract_workspaces_to_containers" = Some (VBool true)
    /\ cfg !! "native_query_parsing" = Some (VBool true)
    /\ cfg !! "convert_urns_to_lowercase" = Some (VBool false)
    /\ cfg !! "convert_lineage_urns_to_lowercase" = Some (VBool true)
    /\ cfg !! "admin_apis_only" = Some (VBool false)
    /\ cfg !! "scan_timeout" = Some (VInt 60).
Proof.
  eexists. split; [accepted|].
  repeat split; by vm_compute.
Qed.

(** C9: when a raw mapping lacks one of [tenant_id], [client_id] and
    [client_secret] and is otherwise valid (supplying the field makes it
    accepted), construction fails and the only error reported is the missing
    field, by name; the result is an error, never an object. *)
Theorem missing_required_field
    (raw cfg : gmap string value) (f v : string) :
  f ∈ required_fields ->
  raw !! f = None ->
  parse_obj (<[f := VStr v]> raw) = Ok cfg ->
  parse_obj raw = ValidationError [MissingError f].
Proof.
  intros Hreq Hmissing Hok.
  apply parse_obj_Ok in Hok as (Hpre & Hnil & _).
  assert (field_named f fields = Some (Field f TStr None)
          /\ f <> "dataset_type_mapping"
          /\ f <> "server_to_platform_instance") as (Hnamed & Hd & Hs).
  { unfold required_fields in Hreq.
    repeat (apply elem_of_cons in Hreq as [->|Hreq]);
      [by vm_compute..|by apply elem_of_nil in Hreq]. }
  rewrite parse_obj_unfold.
  assert (raise_error_for_dataset_type_mapping raw = inr raw) as ->.
  { revert Hpre. unfold raise_error_for_dataset_type_mapping.
    rewrite !lookup_insert_ne by done. by destruct (_ && _). }
  apply field_named_name in Hnamed as Hfield. destruct Hfield as [_ Hin].
  rewrite (omap_single (outcome_error raw) fields (Field f TStr None)
             (MissingError f) fields_NoDup Hin); [done| |].
  - unfold outcome_error, field_outcome.
    cbn [name type_ field_default class_validator Field].
    by rewrite Hmissing.
  - intros g Hg Hne. cbn [name Field] in Hne.
    rewrite <- (outcome_error_insert_ne raw f (VStr v)) by done.
    by eapply omap_nil_elem.
Qed.

Lemma missing_required_field_witness :
  parse_obj (delete "client_secret" raw_required)
  = ValidationError [MissingError "client_secret"].
Proof.
  eapply (missing_required_field (delete "client_secret" raw_required) _
            "client_secret" "s").
  - unfold required_fields. do 2 apply list_elem_of_further.
    apply list_elem_of_here.
  - by vm_compute.
  - accepted.
Defined.

Example missing_tenant_id :
  parse_obj (delete "tenant_id" raw_required)
  = ValidationError [MissingError "tenant_id"].
Proof. by vm_compute. Qed.

Example missing_client_id :
  parse_obj (delete "client_id" raw_required)
  = ValidationError [MissingError "client_id"].
Proof. by vm_compute. Qed.

(** With two fields missing both are reported, in declaration order. *)
Example missing_tenant_and_secret :
  parse_obj (delete "client_secret" (delete "tenant_id" raw_required))
  = ValidationError [MissingError "tenant_id"; MissingError "client_secret"].
Proof. by vm_compute. Qed.

(** ** The PostgreSql key rewrite *)

Lemma map_data_platform_present {V} (value : gmap string V) (v : V) :
  value !! "PostgreSql" = Some v ->
  map_data_platform value = <["PostgreSQL" := v]> (delete "PostgreSql" value).
Proof. intros H. unfold map_data_platform. by rewrite H. Qed.

Lemma map_data_platform_absent {V} (value : gmap string V) :
  value !! "PostgreSql" = None -> map_data_platform value = value.
Proof. intros H. unfold map_data_platform. by rewrite H. Qed.

Lemma map_data_platform_legacy_key {V} (value : gmap string V) :
  map_data_platform value !! "PostgreSql" = None.
Proof.
  unfold map_data_platform.
  destruct (value !! "PostgreSql") eqn:H; [|done].
  by rewrite lookup_insert_ne, lookup_delete_eq.
Qed.

Lemma field_named_dataset_type_mapping :
  field_named "dataset_type_mapping" fields =
  Some {| name := "dataset_type_mapping";
          type_ := TDatasetTypeMapping;
          field_default :=
            Some (VDict (EStr <$> default_for_dataset_type_mapping));
          class_validator := map_data_platform_validator |}.
Proof. reflexivity. Qed.

Lemma validated_dataset_type_mapping raw :
  validated raw !! "dataset_type_mapping" =
  match raw !! "dataset_type_mapping" with
  | None => Some (VDict (EStr <$> default_for_dataset_type_mapping))
  | Some (VDict d) =>
      if all_entries is_str d || all_entries is_detail d
      then Some (VDict (map_data_platform d))
      else None
  | Some _ => None
  end.
Proof.
  rewrite validated_lookup, field_named_dataset_type_mapping.
  unfold field_outcome.
  cbn [name type_ field_default class_validator type_check].
  destruct (raw !! "dataset_type_mapping") as [[]|]; try done.
  by destruct (_ || _).
Qed.

(** C5: when the raw mapping supplies a [dataset_type_mapping] [d], the
    constructed configuration holds [d] after the key rewrite: a value found
    under ["PostgreSql"] is found under ["PostgreSQL"] and the key
    ["PostgreSql"] is gone; a [d] without the key ["PostgreSql"] is kept as
    it is. *)
Theorem postgres_key_rewritten
    (raw cfg : gmap string value) (d : gmap string entry) :
  raw !! "dataset_type_mapping" = Some (VDict d) ->
  parse_obj raw = Ok cfg ->
  exists d',
    cfg !! "dataset_type_mapping" = Some (VDict d')
    /\ d' = map_data_platform d
    /\ (forall v, d !! "PostgreSql" = Some v ->
          d' !! "PostgreSQL" = Some v /\ d' !! "PostgreSql" = None)
    /\ (d !! "PostgreSql" = None -> d' = d).
Proof.
  intros Hd Hok. exists (map_data_platform d).
  destruct (parse_obj_Ok_field raw cfg "dataset_type_mapping" _ Hok
              field_named_dataset_type_mapping) as (v & _ & Hv).
  apply parse_obj_Ok in Hok as (_ & _ & ->).
  rewrite workspace_id_backward_compatibility_other by done.
  rewrite validated_dataset_type_mapping, Hd in Hv |- *.
  destruct (_ || _); [|done].
  split; [done|]. split; [done|]. split.
  - intros e Hlegacy. split; [|apply map_data_platform_legacy_key].
    rewrite (map_data_platform_present _ _ Hlegacy). apply lookup_insert_eq.
  - apply map_data_platform_absent.
Qed.

Lemma postgres_key_rewritten_witness :
  exists cfg d',
    parse_obj raw_legacy_postgres = Ok cfg
    /\ cfg !! "dataset_type_mapping" = Some (VDict d')
    /\ d' !! "PostgreSQL" = Some (EStr "x")
    /\ d' !! "PostgreSql" = None.
Proof.
  assert (parse_obj raw_legacy_postgres =
          Ok (workspace_id_backward_compatibility
                (validated raw_legacy_postgres))) as Hok by accepted.
  assert (raw_legacy_postgres !! "dataset_type_mapping"
          = Some (VDict legacy_postgres)) as Hraw by (by vm_compute).
  destruct (postgres_key_rewritten raw_legacy_postgres _ legacy_postgres
              Hraw Hok) as (d' & Hcfg & _ & Hlegacy & _).
  eexists _, d'. split; [exact Hok|]. split; [exact Hcfg|].
  apply Hlegacy. by vm_compute.
Defined.

(** C10: in the key rewrite, a mapping that holds ["PostgreSql"] with [v1]
    and ["PostgreSQL"] with [v2] comes out holding ["PostgreSQL"] with [v1];
    the value [v2] is overwritten and the legacy key is gone. *)
Theorem legacy_alias_overwrites {V : Type} (value : gmap string V) (v1 v2 : V) :
  value !! "PostgreSql" = Some v1 ->
  value !! "PostgreSQL" = Some v2 ->
  map_data_platform value !! "PostgreSQL" = Some v1
  /\ map_data_platform value !! "PostgreSql" = None
  /\ forall k, k <> "PostgreSql" -> k <> "PostgreSQL" ->
       map_data_platform value !! k = value !! k.
Proof.
  intros Hlegacy Hcurrent.
  rewrite (map_data_platform_present _ _ Hlegacy).
  split; [apply lookup_insert_eq|].
  split; [by rewrite lookup_insert_ne, lookup_delete_eq|].
  intros k Hk1 Hk2. by rewrite lookup_insert_ne, lookup_delete_ne.
Qed.

Lemma legacy_alias_overwrites_witness :
  map_data_platform both_postgres !! "PostgreSQL" = Some (EStr "legacy")
  /\ map_data_platform both_postgres !! "PostgreSql" = None
  /\ forall k, k <> "PostgreSql" -> k <> "PostgreSQL" ->
       map_data_platform both_postgres !! k = both_postgres !! k.
Proof.
  apply (legacy_alias_overwrites both_postgres (EStr "legacy") (EStr "current")).
  - by vm_compute.
  - by vm_compute.
Defined.

(** ** Running the rules again *)

Lemma field_named_server_to_platform_instance :
  field_named "server_to_platform_instance" fields =
  Some (Field "server_to_platform_instance" TServerMap (Some (VDict ∅))).
Proof. reflexivity. Qed.

Lemma validated_server_to_platform_instance raw :
  validated raw !! "server_to_platform_instance" =
  match raw !! "server_to_platform_instance" with
  | None => Some (VDict ∅)
  | Some (VDict d) => if all_entries is_detail d then Some (VDict d) else None
  | Some _ => None
  end.
Proof.
  rewrite validated_lookup, field_named_server_to_platform_instance.
  unfold field_outcome.
  cbn [name type_ field_default class_validator Field type_check].
  destruct (raw !! "server_to_platform_instance") as [[]|]; try done.
  by destruct (all_entries _ _).
Qed.

Lemma parse_obj_conflict raw :
  is_not_None (raw !! "dataset_type_mapping") = true ->
  is_not_None (raw !! "server_to_platform_instance") = true ->
  parse_obj raw = ValidationError [ValueError conflict_message].
Proof.
  intros Hd Hs. rewrite parse_obj_unfold.
  unfold raise_error_for_dataset_type_mapping. by rewrite Hd, Hs.
Qed.

(** A constructed configuration holds both mappings, filled in by the
    schema where the raw mapping had none, so the guard refuses it as a raw
    mapping. *)
Lemma parse_obj_output_rejected raw cfg :
  parse_obj raw = Ok cfg ->
  parse_obj cfg = ValidationError [ValueError conflict_message].
Proof.
  intros Hok.
  destruct (parse_obj_Ok_field raw cfg "dataset_type_mapping" _ Hok
              field_named_dataset_type_mapping) as (vd & _ & Hvd).
  destruct (parse_obj_Ok_field raw cfg "server_to_platform_instance" _ Hok
              field_named_server_to_platform_instance) as (vs & _ & Hvs).
  apply parse_obj_Ok in Hok as (_ & _ & ->).
  apply parse_obj_conflict;
    rewrite workspace_id_backward_compatibility_other by done.
  - rewrite validated_dataset_type_mapping in Hvd |- *.
    destruct (raw !! "dataset_type_mapping") as [[]|]; try done.
    by destruct (_ || _).
  - rewrite validated_server_to_platform_instance in Hvs |- *.
    destruct (raw !! "server_to_platform_instance") as [[]|]; try done.
    by destruct (all_entries _ _).
Qed.

Lemma map_data_platform_idempotent {V} (value : gmap string V) :
  map_data_platform (map_data_platform value) = map_data_platform value.
Proof. apply map_data_platform_absent, map_data_platform_legacy_key. Qed.

Lemma anchored_pattern_not_allow_all s :
  VPattern (AllowDenyPattern_init (Some ["^" +:+ s +:+ "$"]))
  <> VPattern allow_all.
Proof. intros Heq. by injection Heq. Qed.

Lemma workspace_id_backward_compatibility_no_workspace_id values :
  values !! "workspace_id" = None ->
  workspace_id_backward_compatibility values = values.
Proof.
  intros Hws. unfold workspace_id_backward_compatibility. by rewrite Hws.
Qed.

Lemma workspace_id_backward_compatibility_twice values :
  workspace_id_backward_compatibility
    (workspace_id_backward_compatibility values) =
  if folds_workspace_id values
  then delete "workspace_id" (workspace_id_backward_compatibility values)
  else workspace_id_backward_compatibility values.
Proof.
  assert (forall s,
            values !! "workspace_id" = Some (VStr s) -> s <> "" ->
            values !! "workspace_id_pattern" = Some (VPattern allow_all) ->
            workspace_id_backward_compatibility values =
            <["workspace_id_pattern" :=
                VPattern (AllowDenyPattern_init (Some ["^" +:+ s +:+ "$"]))]>
              values) as Hfold.
  { intros s Hws Hs Hpat. unfold workspace_id_backward_compatibility.
    by rewrite Hws, bool_decide_false, bool_decide_true. }
  assert (forall s,
            values !! "workspace_id" = Some (VStr s) -> s <> "" ->
            values !! "workspace_id_pattern" <> Some (VPattern allow_all) ->
            workspace_id_backward_compatibility values =
            delete "workspace_id" values) as Hpop.
  { intros s Hws Hs Hpat. unfold workspace_id_backward_compatibility.
    by rewrite Hws, !bool_decide_false. }
  assert ((forall s, values !! "workspace_id" = Some (VStr s) -> s = "") ->
          workspace_id_backward_compatibility values = values) as Hskip.
  { intros Hempty. unfold workspace_id_backward_compatibility.
    destruct (values !! "workspace_id") as [[| s | | | | |]|]; try done.
    by rewrite bool_decide_true by by apply Hempty. }
  unfold folds_workspace_id.
  destruct (values !! "workspace_id") as [[| s | | | | |]|] eqn:Hws;
    try (rewrite !Hskip by (intros s' [=]); done).
  case_bool_decide as Hs; cbn [negb andb].
  { by rewrite !Hskip by by intros s' [= <-]. }
  case_bool_decide as Hpat.
  - rewrite (Hfold s) by done.
    unfold workspace_id_backward_compatibility at 1.
    rewrite lookup_insert_ne, Hws by done.
    rewrite (bool_decide_false (s = "")) by done.
    rewrite lookup_insert_eq, bool_decide_false; [done|].
    intros Heq. apply (anchored_pattern_not_allow_all s). by injection Heq.
  - rewrite (Hpop s) by done.
    apply workspace_id_backward_compatibility_no_workspace_id,
      lookup_delete_eq.
Qed.

(** C4, as amended: running the construction on its own output never gives
    the same result, it fails on the exclusivity guard.  Rule by rule, the
    key rewrite applied twice equals the key rewrite applied once, and so
    does the guard; the workspace rule applied twice equals the rule applied
    once except when the first run folded [workspace_id] into the pattern,
    in which case the second run removes [workspace_id]; a third run changes
    nothing further. *)
Theorem normalization_rules_repeated
    (raw values : gmap string value) (d : gmap string entry) :
  and_then (parse_obj raw) parse_obj
  = and_then (parse_obj raw)
      (fun _ => ValidationError [ValueError conflict_message])
  /\ map_data_platform (map_data_platform d) = map_data_platform d
  /\ match raise_error_for_dataset_type_mapping raw with
     | inr values' => raise_error_for_dataset_type_mapping values'
     | inl exc => inl exc
     end = raise_error_for_dataset_type_mapping raw
  /\ workspace_id_backward_compatibility
       (workspace_id_backward_compatibility values)
     = (if folds_workspace_id values
        then delete "workspace_id" (workspace_id_backward_compatibility values)
        else workspace_id_backward_compatibility values)
  /\ workspace_id_backward_compatibility
       (workspace_id_backward_compatibility
          (workspace_id_backward_compatibility values))
     = workspace_id_backward_compatibility
         (workspace_id_backward_compatibility values).
Proof.
  split; [|split; [|split; [|split]]].
  - destruct (parse_obj raw) as [cfg|errors] eqn:Hok; cbn [and_then]; [|done].
    by eapply parse_obj_output_rejected.
  - apply map_data_platform_idempotent.
  - destruct (raise_error_for_dataset_type_mapping raw) as [exc|values']
      eqn:Hpre; [done|].
    apply raise_error_for_dataset_type_mapping_inr in Hpre as Heq.
    by subst values'.
  - apply workspace_id_backward_compatibility_twice.
  - rewrite (workspace_id_backward_compatibility_twice values).
    destruct (folds_workspace_id values) eqn:Hfold.
    + apply workspace_id_backward_compatibility_no_workspace_id,
        lookup_delete_eq.
    + rewrite workspace_id_backward_compatibility_twice, Hfold. done.
Qed.

(** The claim C4 fails: the configuration built from a workspace id is
    refused when it is fed to the construction again, and already the
    workspace rule alone changes it. *)
Lemma normalization_not_idempotent :
  exists cfg,
    parse_obj raw_workspace_abc = Ok cfg
    /\ parse_obj cfg = ValidationError [ValueError conflict_message]
    /\ parse_obj cfg <> Ok cfg
    /\ cfg !! "workspace_id" = Some (VStr "abc")
    /\ workspace_id_backward_compatibility cfg !! "workspace_id" = None
    /\ workspace_id_backward_compatibility cfg <> cfg.
Proof.
  eexists. split; [accepted|].
  set (cfg := workspace_id_backward_compatibility (validated raw_workspace_abc)).
  assert (parse_obj cfg = ValidationError [ValueError conflict_message])
    as Hrejected by (apply parse_obj_conflict; by vm_compute).
  assert (cfg !! "workspace_id" = Some (VStr "abc")) as Hkept
    by (by vm_compute).
  assert (workspace_id_backward_compatibility cfg !! "workspace_id" = None)
    as Hgone by (by vm_compute).
  split; [exact Hrejected|]. split; [by rewrite Hrejected|].
  split; [exact Hkept|]. split; [exact Hgone|].
  intros Heq. rewrite Heq, Hkept in Hgone. discriminate Hgone.
Qed.

(** ** The ingestion report, call after call *)

Lemma report_calls_snoc self cs c :
  report_calls self (cs ++ [c]) = report_step (report_calls self cs) c.
Proof. unfold report_calls. by rewrite foldl_app. Qed.

(** X1: after any sequence of calls, each scanned counter is its starting
    value plus the counts of the calls to its own method (one for a call
    without argument); calls to the other methods do not move it. *)
Theorem scanned_counters_sum
    (self : PowerBiDashboardSourceReport) (cs : list report_call) :
  dashboards_scanned (report_calls self cs)
  = (dashboards_scanned self + sum_Z (dashboards_counted <$> cs))%Z
  /\ charts_scanned (report_calls self cs)
     = (charts_scanned self + sum_Z (charts_counted <$> cs))%Z.
Proof.
  induction cs as [|c cs IH] using rev_ind.
  - cbn. lia.
  - rewrite report_calls_snoc, !fmap_app. unfold sum_Z in *.
    rewrite !foldr_app. cbn [fmap list_fmap foldr].
    destruct IH as [IHd IHc].
    assert (forall (l : list Z) (a : Z),
              foldr Z.add a l = (foldr Z.add 0 l + a)%Z) as Hshift.
    { induction l as [|x l IHl]; intros a; cbn; [lia|]. rewrite IHl. lia. }
    rewrite (Hshift _ (dashboards_counted c + 0)%Z),
      (Hshift _ (charts_counted c + 0)%Z).
    destruct c; cbn; lia.
Qed.

(** X2: after any sequence of calls, each list of dropped names is its
    starting value followed by the names given to its own method, in call
    order and with repetitions kept. *)
Theorem dropped_lists_in_call_order
    (self : PowerBiDashboardSourceReport) (cs : list report_call) :
  filtered_dashboards (report_calls self cs)
  = filtered_dashboards self ++ omap dashboard_dropped cs
  /\ filtered_charts (report_calls self cs)
     = filtered_charts self ++ omap chart_dropped cs.
Proof.
  induction cs as [|c cs IH] using rev_ind.
  - cbn. by rewrite !app_nil_r.
  - rewrite report_calls_snoc, !omap_app. destruct IH as [IHd IHc].
    destruct c; cbn; rewrite ?IHd, ?IHc, ?app_nil_r, <- ?(assoc_L (++)); done.
Qed.

(** X3: [number_of_workspaces] holds the argument of the last call that set
    it, and its starting value when no call did: earlier settings are
    overwritten, not added up. *)
Theorem number_of_workspaces_last_write
    (self : PowerBiDashboardSourceReport) (cs : list report_call) :
  number_of_workspaces (report_calls self cs)
  = default (number_of_workspaces self) (last (omap workspaces_reported cs)).
Proof.
  induction cs as [|c cs IH] using rev_ind; [done|].
  rewrite report_calls_snoc, omap_app.
  destruct c; cbn; rewrite ?app_nil_r; try exact IH.
  by rewrite last_snoc.
Qed.

(** X4: the scanned counters do not depend on the order of the calls. *)
Theorem scanned_counters_order_independent
    (self : PowerBiDashboardSourceReport) (cs cs' : list report_call) :
  cs ≡ₚ cs' ->
  dashboards_scanned (report_calls self cs)
  = dashboards_scanned (report_calls self cs')
  /\ charts_scanned (report_calls self cs)
     = charts_scanned (report_calls self cs').
Proof.
  intros Hperm.
  assert (forall f : report_call -> Z,
            sum_Z (f <$> cs) = sum_Z (f <$> cs')) as Hsum.
  { intros f. induction Hperm as [|c l l' _ IH|c c' l|l l' l'' _ IH _ IH'];
      unfold sum_Z in *; cbn in *; lia. }
  assert (forall r l,
            dashboards_scanned (report_calls r l)
            = (dashboards_scanned r + sum_Z (dashboards_counted <$> l))%Z
            /\ charts_scanned (report_calls r l)
               = (charts_scanned r + sum_Z (charts_counted <$> l))%Z) as Hchar.
  { intros r l. revert r.
    induction l as [|c l IH]; intros r; [unfold sum_Z; cbn; lia|].
    change (report_calls r (c :: l)) with (report_calls (report_step r c) l).
    destruct (IH (report_step r c)) as [-> ->].
    unfold sum_Z. destruct c; cbn; lia. }
  destruct (Hchar self cs) as [-> ->], (Hchar self cs') as [-> ->].
  by rewrite !Hsum.
Qed.

Lemma scanned_counters_order_independent_witness :
  dashboards_scanned
    (report_calls PowerBiDashboardSourceReport_init sample_calls)
  = dashboards_scanned
      (report_calls PowerBiDashboardSourceReport_init (reverse sample_calls))
  /\ charts_scanned
       (report_calls PowerBiDashboardSourceReport_init sample_calls)
     = charts_scanned
         (report_calls PowerBiDashboardSourceReport_init (reverse sample_calls)).
Proof.
  apply scanned_counters_order_independent.
  symmetry. apply reverse_Permutation.
Defined.

(** ** The default mapping and the key rewrite, in general *)

(** X5: the default [dataset_type_mapping] holds exactly the pairs of the
    supported platforms: a PowerBI name is mapped to a DataHub name if and
    only if some platform carries that pair; no platform is lost to another
    one with the same PowerBI name, the mapping has as many entries as there
    are platforms. *)
Theorem default_mapping_entries (k v : string) :
  (default_for_dataset_type_mapping !! k = Some v <->
     exists item : SupportedDataPlatform,
       powerbi_data_platform_name (platform_value item) = k
       /\ datahub_data_platform_name (platform_value item) = v)
  /\ size default_for_dataset_type_mapping
     = length SupportedDataPlatform_members.
Proof.
  split; [|by vm_compute].
  split.
  - unfold default_for_dataset_type_mapping.
    cbn [foldl SupportedDataPlatform_members platform_value
           powerbi_data_platform_name datahub_data_platform_name].
    repeat (rewrite lookup_insert; case_decide;
            [intros [= <-]; subst k;
             first [by exists POSTGRES_SQL | by exists ORACLE
                   | by exists SNOWFLAKE | by exists MS_SQL
                   | by exists GOOGLE_BIGQUERY | by exists AMAZON_REDSHIFT]|]).
    by rewrite lookup_empty.
  - intros (item & <- & <-). destruct item; by vm_compute.
Qed.

(** X6: the keys after the rewrite: with the legacy key present, the old
    keys without ["PostgreSql"] and with ["PostgreSQL"]; otherwise the old
    keys. *)
Theorem map_data_platform_keys {V : Type} (value : gmap string V) :
  dom (map_data_platform value)
  = if decide (is_Some (value !! "PostgreSql"))
    then {[ "PostgreSQL" ]} ∪ (dom value ∖ {[ "PostgreSql" ]})
    else dom value.
Proof.
  unfold map_data_platform.
  destruct (value !! "PostgreSql") as [v|] eqn:Hlegacy.
  - rewrite decide_True by eauto. by rewrite dom_insert_L, dom_delete_L.
  - rewrite decide_False; [done|]. by intros [? ?].
Qed.

(** X7: the rewrite never adds an entry: the mapping loses one entry when
    both spellings were present and keeps its size otherwise. *)
Theorem map_data_platform_size {V : Type} (value : gmap string V) :
  size (map_data_platform value)
  = match value !! "PostgreSql", value !! "PostgreSQL" with
    | Some _, Some _ => pred (size value)
    | _, _ => size value
    end.
Proof.
  unfold map_data_platform.
  destruct (value !! "PostgreSql") as [v1|] eqn:Hlegacy; [|done].
  rewrite map_size_insert, lookup_delete_ne, map_size_delete, Hlegacy by done.
  destruct (value !! "PostgreSQL") as [v2|]; cbn; [done|].
  assert (size value <> 0); [|lia].
  intros Hsize. apply map_size_empty_inv in Hsize. subst value.
  by rewrite lookup_empty in Hlegacy.
Qed.

(** X8: the rewrite leaves every key other than the two spellings alone,
    and every value of the result was a value of the input: nothing is
    invented and nothing but an overwritten ["PostgreSQL"] entry is lost. *)
Theorem map_data_platform_values {V : Type} (value : gmap string V) :
  (forall k, k <> "PostgreSql" -> k <> "PostgreSQL" ->
     map_data_platform value !! k = value !! k)
  /\ (forall k v, map_data_platform value !! k = Some v ->
        exists k', value !! k' = Some v)
  /\ (forall k v, value !! k = Some v -> k <> "PostgreSQL" ->
        exists k', map_data_platform value !! k' = Some v).
Proof.
  unfold map_data_platform.
  destruct (value !! "PostgreSql") as [v1|] eqn:Hlegacy.
  - split; [|split].
    + intros k Hk1 Hk2. by rewrite lookup_insert_ne, lookup_delete_ne.
    + intros k v. rewrite lookup_insert. case_decide as Hk.
      * intros [= <-]. eauto.
      * rewrite lookup_delete. case_decide; [done|]. eauto.
    + intros k v Hkv Hk. destruct (decide (k = "PostgreSql")) as [->|Hne].
      * exists "PostgreSQL". rewrite lookup_insert_eq. congruence.
      * exists k. by rewrite lookup_insert_ne, lookup_delete_ne.
  - split; [done|]. split; eauto.
Qed.

(** ** The workspace rule, in general *)

(** X9: the workspace rule never adds a key, and it reads and writes the two
    selector keys only: every other entry of the values is left as it is. *)
Theorem workspace_rule_frame (values : gmap string value) :
  dom (workspace_id_backward_compatibility values) ⊆ dom values
  /\ forall k, k <> "workspace_id" -> k <> "workspace_id_pattern" ->
       workspace_id_backward_compatibility values !! k = values !! k.
Proof.
  split; [|intros k; apply workspace_id_backward_compatibility_other].
  unfold workspace_id_backward_compatibility.
  destruct (values !! "workspace_id") as [[| s | | | | |]|]; try done.
  case_bool_decide as Hs; [done|].
  case_bool_decide as Hpat.
  - rewrite dom_insert_lookup_L; [done|]. by rewrite Hpat.
  - rewrite dom_delete_L. by apply subseteq_difference_l.
Qed.

(** X10: after the workspace rule, a non-empty [workspace_id] that is still
    there always sits next to its own anchored pattern: the rule never
    leaves a workspace id together with the allow-all pattern or with a
    pattern of the user. *)
Theorem workspace_rule_postcondition (values : gmap string value) :
  folds_workspace_id (workspace_id_backward_compatibility values) = false
  /\ forall s,
       workspace_id_backward_compatibility values !! "workspace_id"
         = Some (VStr s) ->
       s <> "" ->
       workspace_id_backward_compatibility values !! "workspace_id_pattern"
         = Some (VPattern {| allow := ["^" +:+ s +:+ "$"]; deny := [] |}).
Proof.
  assert (forall s,
            workspace_id_backward_compatibility values !! "workspace_id"
              = Some (VStr s) ->
            s <> "" ->
            workspace_id_backward_compatibility values !! "workspace_id_pattern"
              = Some (VPattern {| allow := ["^" +:+ s +:+ "$"]; deny := [] |}))
    as Hanchored.
  { intros s.
    rewrite workspace_id_backward_compatibility_workspace_id,
      workspace_id_backward_compatibility_pattern.
    destruct (values !! "workspace_id") as [[| s' | | | | |]|]; try done.
    repeat case_bool_decide; intros Heq Hne; by simplify_eq. }
  split; [|exact Hanchored].
  unfold folds_workspace_id.
  destruct (workspace_id_backward_compatibility values !! "workspace_id")
    as [[| s | | | | |]|] eqn:Hws; try done.
  case_bool_decide as Hs; [done|]. cbn [negb andb].
  rewrite (Hanchored s) by done.
  apply bool_decide_false. intros Heq.
  apply (anchored_pattern_not_allow_all s). by injection Heq.
Qed.

Lemma workspace_rule_postcondition_witness :
  workspace_id_backward_compatibility (validated raw_workspace_abc)
    !! "workspace_id_pattern"
  = Some (VPattern {| allow := ["^abc$"]; deny := [] |}).
Proof.
  apply (proj2 (workspace_rule_postcondition (validated raw_workspace_abc)) "abc").
  - by vm_compute.
  - done.
Defined.

(** X11: a [workspace_id_pattern] that the user spells out as the allow-all
    pattern is treated like a missing one: a non-empty [workspace_id]
    replaces it by the anchored pattern and stays in the configuration. *)
Theorem explicit_allow_all_is_overridden
    (raw cfg : gmap string value) (s : string) :
  raw !! "workspace_id_pattern" = Some (VPattern allow_all) ->
  raw !! "workspace_id" = Some (VStr s) ->
  s <> "" ->
  parse_obj raw = Ok cfg ->
  cfg !! "workspace_id_pattern"
    = Some (VPattern {| allow := ["^" +:+ s +:+ "$"]; deny := [] |})
  /\ cfg !! "workspace_id" = Some (VStr s).
Proof.
  intros Hpat Hws Hs Hok.
  apply parse_obj_Ok in Hok as (_ & _ & ->).
  rewrite workspace_id_backward_compatibility_workspace_id,
    workspace_id_backward_compatibility_pattern.
  rewrite validated_workspace_id, validated_workspace_id_pattern, Hpat, Hws.
  by rewrite bool_decide_false, bool_decide_true.
Qed.

Lemma explicit_allow_all_is_overridden_witness :
  exists cfg,
    parse_obj raw_allow_all_and_abc = Ok cfg
    /\ cfg !! "workspace_id_pattern"
         = Some (VPattern {| allow := ["^abc$"]; deny := [] |})
    /\ cfg !! "workspace_id" = Some (VStr "abc").
Proof.
  assert (parse_obj raw_allow_all_and_abc =
          Ok (workspace_id_backward_compatibility
                (validated raw_allow_all_and_abc))) as Hok by accepted.
  eexists. split; [exact Hok|].
  apply (explicit_allow_all_is_overridden raw_allow_all_and_abc _ "abc").
  - by vm_compute.
  - by vm_compute.
  - done.
  - exact Hok.
Defined.

(** X12: without a usable [workspace_id] (not supplied, [None] or the empty
    string) the rule does nothing: the configuration carries the supplied
    pattern, or the allow-all default when none was supplied, and
    [workspace_id] as it was given ([None] when it was not). *)
Theorem no_workspace_id_keeps_pattern (raw cfg : gmap string value) :
  raw !! "workspace_id" = None \/ raw !! "workspace_id" = Some VNone
  \/ raw !! "workspace_id" = Some (VStr "") ->
  parse_obj raw = Ok cfg ->
  cfg !! "workspace_id_pattern"
    = Some (match raw !! "workspace_id_pattern" with
            | Some (VPattern p) => VPattern p
            | _ => VPattern allow_all
            end)
  /\ cfg !! "workspace_id" = Some (default VNone (raw !! "workspace_id")).
Proof.
  intros Hws Hok.
  destruct (parse_obj_Ok_selectors raw cfg Hok) as [_ Hpat].
  apply parse_obj_Ok in Hok as (_ & _ & ->).
  rewrite workspace_id_backward_compatibility_workspace_id,
    workspace_id_backward_compatibility_pattern.
  rewrite validated_workspace_id, validated_workspace_id_pattern.
  destruct Hpat as [Hpat|[p Hpat]]; rewrite Hpat;
    destruct Hws as [Hws|[Hws|Hws]]; rewrite Hws; done.
Qed.

Lemma no_workspace_id_keeps_pattern_witness :
  exists cfg,
    parse_obj raw_required = Ok cfg
    /\ cfg !! "workspace_id_pattern" = Some (VPattern allow_all)
    /\ cfg !! "workspace_id" = Some VNone.
Proof.
  assert (parse_obj raw_required =
          Ok (workspace_id_backward_compatibility (validated raw_required)))
    as Hok by accepted.
  assert (raw_required !! "workspace_id" = None) as Hws by (by vm_compute).
  eexists. split; [exact Hok|].
  destruct (no_workspace_id_keeps_pattern raw_required _ (or_introl Hws) Hok)
    as [Hpat Hid].
  split; [|exact Hid]. rewrite Hpat. by vm_compute.
Defined.

(** ** Every field of a constructed configuration *)

Lemma type_check_keeps t v v_ : type_check t v = Some v_ -> v_ = v.
Proof.
  destruct t, v; cbn; try done; try (by intros [= <-]).
  all: by case_match; intros [= <-].
Qed.

Lemma class_validator_plain field v :
  field ∈ fields -> name field <> "dataset_type_mapping" ->
  class_validator field v = v.
Proof.
  unfold fields. intros Hin Hname.
  repeat (apply elem_of_cons in Hin as [->|Hin]); try done.
  by apply elem_of_nil in Hin.
Qed.

Lemma all_entries_spec p (d : gmap string entry) :
  all_entries p d = true <-> map_Forall (fun _ e => p e = true) d.
Proof.
  unfold all_entries. rewrite map_Forall_to_list, forallb_forall, Forall_forall.
  split.
  - intros H [k e] Hin. apply (H (k, e)). by apply list_elem_of_In.
  - intros H [k e] Hin. apply (H (k, e)). by apply list_elem_of_In.
Qed.

Lemma all_entries_map_data_platform p (d : gmap string entry) :
  all_entries p d = true -> all_entries p (map_data_platform d) = true.
Proof.
  rewrite !all_entries_spec. intros Hall. unfold map_data_platform.
  destruct (d !! "PostgreSql") as [e|] eqn:Hlegacy; [|done].
  apply map_Forall_insert_2; [by apply (Hall _ _ Hlegacy)|].
  by apply map_Forall_delete.
Qed.

Lemma field_default_well_typed field d :
  field ∈ fields -> field_default field = Some d ->
  type_check (type_ field) d = Some d.
Proof.
  unfold fields. intros Hin.
  repeat (apply elem_of_cons in Hin as [->|Hin]);
    try (by apply elem_of_nil in Hin);
    cbn [field_default type_ Field]; try done;
    by intros [= <-]; vm_compute.
Qed.

Lemma field_outcome_well_typed raw field v :
  field ∈ fields -> field_outcome raw field = inr v ->
  type_check (type_ field) v = Some v.
Proof.
  intros Hin. unfold field_outcome.
  destruct (raw !! name field) as [v0|].
  - destruct (type_check (type_ field) v0) as [v_|] eqn:Hty; [|done].
    intros [= <-]. apply type_check_keeps in Hty as Heq. subst v_.
    destruct (decide (name field = "dataset_type_mapping")) as [Hdtm|Hne].
    + pose proof (field_named_elem fields field fields_NoDup Hin) as Hnamed.
      rewrite Hdtm, field_named_dataset_type_mapping in Hnamed.
      injection Hnamed as <-. revert Hty.
      cbn [type_ class_validator type_check].
      destruct v0 as [| | | | |d|]; try done.
      cbn [map_data_platform_validator].
      destruct (all_entries is_str d) eqn:Hstr.
      * by rewrite (all_entries_map_data_platform _ _ Hstr).
      * destruct (all_entries is_detail d) eqn:Hdetail; [|done].
        rewrite (all_entries_map_data_platform _ _ Hdetail).
        intros _. by rewrite orb_true_r.
    + by rewrite class_validator_plain.
  - destruct (field_default field) as [d|] eqn:Hdef; [|done].
    intros [= <-]. by apply field_default_well_typed.
Qed.

(** X13: in a constructed configuration every declared field other than
    [workspace_id] is present, and every value that is present has the
    declared type of its field; [workspace_id] is the only field that can be
    missing. *)
Theorem constructed_configuration_well_typed
    (raw cfg : gmap string value) (field : ModelField) :
  parse_obj raw = Ok cfg ->
  field ∈ fields ->
  match cfg !! name field with
  | Some v => type_check (type_ field) v = Some v
  | None => name field = "workspace_id"
  end.
Proof.
  intros Hok Hin.
  pose proof (field_named_elem fields field fields_NoDup Hin) as Hnamed.
  destruct (parse_obj_Ok_field raw cfg _ _ Hok Hnamed) as (v & Hout & Hv).
  pose proof (field_outcome_well_typed raw field v Hin Hout) as Hty.
  apply parse_obj_Ok in Hok as (_ & _ & ->).
  destruct (decide (name field = "workspace_id")) as [Hws|Hws].
  { rewrite Hws in Hv |- *.
    rewrite workspace_id_backward_compatibility_workspace_id, Hv.
    destruct v as [|s| | | | |]; try done.
    repeat case_bool_decide; done. }
  destruct (decide (name field = "workspace_id_pattern")) as [Hpat|Hpat].
  { rewrite Hpat in Hv |- *.
    rewrite workspace_id_backward_compatibility_pattern, Hv.
    assert (type_ field = TAllowDeny) as Htype.
    { unfold fields in Hin.
      repeat (apply elem_of_cons in Hin as [->|Hin]); try done.
      by apply elem_of_nil in Hin. }
    rewrite Htype in Hty |- *.
    destruct (validated raw !! "workspace_id") as [[|s| | | | |]|]; try done.
    destruct (bool_decide (s = "")); [done|].
    by destruct (bool_decide (Some v = Some (VPattern allow_all))). }
  by rewrite workspace_id_backward_compatibility_other, Hv.
Qed.

Lemma constructed_configuration_well_typed_witness :
  match
    workspace_id_backward_compatibility (validated raw_pattern_and_abc)
      !! "scan_timeout"
  with
  | Some v => type_check TInt v = Some v
  | None => "scan_timeout" = "workspace_id"
  end.
Proof.
  apply (constructed_configuration_well_typed raw_pattern_and_abc _
           (Field "scan_timeout" TInt (Some (VInt 60)))).
  - accepted.
  - unfold fields. do 9 apply list_elem_of_further. apply list_elem_of_here.
Defined.



(** X15: in a constructed configuration a field that the raw mapping does
    not supply holds its declared default, whatever else the raw mapping
    supplies; the one exception is [workspace_id_pattern], which the
    workspace rule may rewrite. *)
Theorem unsupplied_field_has_default
    (raw cfg : gmap string value) (field : ModelField) :
  parse_obj raw = Ok cfg ->
  field ∈ fields ->
  name field <> "workspace_id_pattern" ->
  raw !! name field = None ->
  cfg !! name field = field_default field.
Proof.
  intros Hok Hin Hpat Hraw.
  pose proof (field_named_elem fields field fields_NoDup Hin) as Hnamed.
  destruct (parse_obj_Ok_field raw cfg _ _ Hok Hnamed) as (v & Hout & Hv).
  apply parse_obj_Ok in Hok as (_ & _ & ->).
  revert Hout. unfold field_outcome. rewrite Hraw.
  destruct (field_default field) as [d|]; [|done]. intros [= <-].
  destruct (decide (name field = "workspace_id")) as [Hws|Hws].
  - rewrite Hws in Hv |- *.
    rewrite workspace_id_backward_compatibility_workspace_id, Hv.
    rewrite validated_workspace_id in Hv. rewrite Hws in Hraw.
    rewrite Hraw in Hv. by injection Hv as <-.
  - by rewrite workspace_id_backward_compatibility_other.
Qed.

Lemma unsupplied_field_has_default_witness :
  workspace_id_backward_compatibility (validated raw_custom_toggles)
    !! "extract_lineage" = Some (VBool true).
Proof.
  apply (unsupplied_field_has_default raw_custom_toggles _
           (Field "extract_lineage" TBool (Some (VBool true)))).
  - accepted.
  - unfold fields. do 12 apply list_elem_of_further. apply list_elem_of_here.
  - done.
  - by vm_compute.
Defined.

(** X16: the [dataset_type_mapping] of a constructed configuration is always
    a dictionary without the key ["PostgreSql"], whether the user supplied
    the mapping or the default was taken. *)
Theorem constructed_mapping_has_no_legacy_key (raw cfg : gmap string value) :
  parse_obj raw = Ok cfg ->
  exists d,
    cfg !! "dataset_type_mapping" = Some (VDict d)
    /\ d !! "PostgreSql" = None.
Proof.
  intros Hok.
  destruct (parse_obj_Ok_field raw cfg "dataset_type_mapping" _ Hok
              field_named_dataset_type_mapping) as (v & _ & Hv).
  apply parse_obj_Ok in Hok as (_ & _ & ->).
  rewrite workspace_id_backward_compatibility_other by done.
  rewrite validated_dataset_type_mapping in Hv |- *.
  destruct (raw !! "dataset_type_mapping") as [[| | | | |d|]|]; try done.
  - destruct (_ || _); [|done].
    exists (map_data_platform d). split; [done|].
    apply map_data_platform_legacy_key.
  - eexists. split; [done|]. by vm_compute.
Qed.

Lemma constructed_mapping_has_no_legacy_key_witness :
  exists d,
    workspace_id_backward_compatibility (validated raw_legacy_postgres)
      !! "dataset_type_mapping" = Some (VDict d)
    /\ d !! "PostgreSql" = None.
Proof.
  apply (constructed_mapping_has_no_legacy_key raw_legacy_postgres).
  accepted.
Defined.

(** ** Which constructions fail, and how *)

Lemma guard_passes raw :
  is_not_None (raw !! "dataset_type_mapping")
  && is_not_None (raw !! "server_to_platform_instance") = false ->
  raise_error_for_dataset_type_mapping raw = inr raw.
Proof.
  intros Hguard. unfold raise_error_for_dataset_type_mapping.
  by rewrite Hguard.
Qed.

Lemma required_field_in_fields f :
  f ∈ required_fields -> Field f TStr None ∈ fields.
Proof.
  unfold required_fields. intros Hreq.
  repeat (apply elem_of_cons in Hreq as [->|Hreq]).
  - unfold fields. do 2 apply list_elem_of_further. apply list_elem_of_here.
  - unfold fields. do 7 apply list_elem_of_further. apply list_elem_of_here.
  - unfold fields. do 8 apply list_elem_of_further. apply list_elem_of_here.
  - by apply elem_of_nil in Hreq.
Qed.

Lemma no_default_is_required field :
  field ∈ fields -> field_default field = None -> name field ∈ required_fields.
Proof.
  unfold fields. intros Hin.
  repeat (apply elem_of_cons in Hin as [->|Hin]);
    try (by apply elem_of_nil in Hin);
    cbn [field_default name Field]; try done; intros _; unfold required_fields.
  - apply list_elem_of_here.
  - apply list_elem_of_further, list_elem_of_here.
  - do 2 apply list_elem_of_further. apply list_elem_of_here.
Qed.

(** X17: when the guard lets the raw mapping through, a missing-field error
    for [f] is reported exactly when [f] is one of [tenant_id], [client_id]
    and [client_secret] and the raw mapping has no entry for it, however
    many other fields are missing or ill-typed; no other field can be
    reported missing. *)
Theorem missing_error_iff (raw : gmap string value) (f : string) :
  raise_error_for_dataset_type_mapping raw = inr raw ->
  (exists errors,
     parse_obj raw = ValidationError errors /\ MissingError f ∈ errors)
  <-> f ∈ required_fields /\ raw !! f = None.
Proof.
  intros Hpre. rewrite parse_obj_unfold, Hpre. split.
  - intros (errors & Herrors & Hin).
    assert (MissingError f ∈ omap (outcome_error raw) fields) as Hin'.
    { destruct (omap (outcome_error raw) fields); [done|].
      by injection Herrors as <-. }
    apply list_elem_of_omap in Hin' as (field & Hfield & Hout).
    revert Hout. unfold outcome_error, field_outcome.
    destruct (raw !! name field) as [v|] eqn:Hraw.
    + by destruct (type_check (type_ field) v).
    + destruct (field_default field) as [d|] eqn:Hdef; [done|].
      intros [= <-]. split; [by apply no_default_is_required|done].
  - intros [Hreq Hraw].
    assert (MissingError f ∈ omap (outcome_error raw) fields) as Hin.
    { apply list_elem_of_omap. exists (Field f TStr None).
      split; [by apply required_field_in_fields|].
      unfold outcome_error, field_outcome.
      cbn [name type_ field_default Field]. by rewrite Hraw. }
    destruct (omap (outcome_error raw) fields) as [|e errors];
      [by apply elem_of_nil in Hin|].
    by eexists.
Qed.

Lemma missing_error_iff_witness :
  exists errors,
    parse_obj (delete "client_id" (delete "tenant_id" raw_custom_toggles))
    = ValidationError errors
    /\ MissingError "client_id" ∈ errors.
Proof.
  apply (missing_error_iff
           (delete "client_id" (delete "tenant_id" raw_custom_toggles))
           "client_id").
  - apply guard_passes. by vm_compute.
  - split; [|by vm_compute].
    unfold required_fields. apply list_elem_of_further, list_elem_of_here.
Defined.

(** X18: [None] is accepted by the [Optional] fields only.  When the guard
    lets the raw mapping through, an explicit [None] for any other declared
    field makes construction fail with a type error that names the field.
    This holds for [dataset_type_mapping] too: [None] there does not count
    as a conflict with [server_to_platform_instance], but it is not a valid
    mapping either. *)
Theorem explicit_None_rejected
    (raw : gmap string value) (field : ModelField) :
  raise_error_for_dataset_type_mapping raw = inr raw ->
  field ∈ fields ->
  type_ field <> TOptStr ->
  type_ field <> TOptStateful ->
  raw !! name field = Some VNone ->
  exists errors,
    parse_obj raw = ValidationError errors
    /\ TypeError (name field) ∈ errors
    /\ ValueError conflict_message ∉ errors.
Proof.
  intros Hpre Hin Hopt Hstate Hraw. rewrite parse_obj_unfold, Hpre.
  assert (TypeError (name field) ∈ omap (outcome_error raw) fields) as Herr.
  { apply list_elem_of_omap. exists field. split; [done|].
    unfold outcome_error, field_outcome. rewrite Hraw.
    by destruct (type_ field). }
  pose proof (field_errors_not_ValueError raw fields conflict_message) as Hno.
  destruct (omap (outcome_error raw) fields) as [|e errors];
    [by apply elem_of_nil in Herr|].
  by eexists.
Qed.

Lemma explicit_None_rejected_witness :
  exists errors,
    parse_obj raw_null_dataset_type_mapping = ValidationError errors
    /\ TypeError "dataset_type_mapping" ∈ errors
    /\ ValueError conflict_message ∉ errors.
Proof.
  apply (explicit_None_rejected raw_null_dataset_type_mapping
           {| name := "dataset_type_mapping";
              type_ := TDatasetTypeMapping;
              field_default :=
                Some (VDict (EStr <$> default_for_dataset_type_mapping));
              class_validator := map_data_platform_validator |}).
  - apply guard_passes. by vm_compute.
  - unfold fields. do 5 apply list_elem_of_further. apply list_elem_of_here.
  - done.
  - done.
  - by vm_compute.
Defined.

